(** * Take-home pay calculator (calc.py): model and verified properties

    The script computes the monthly take-home pay of an employee or of a
    consultant from an annual CTC, and searches for the CTC that yields a
    desired take-home pay.  All amounts are in thousands of rupees.

    Numbers.  The script mixes Python integers with binary64 literals
    (.05, .2, .3, .04, .1, 2.5, .5, 0.2561).  Module [Calc] reads every
    literal as the decimal fraction it denotes and computes with exact
    rationals ([Q]); integer arguments embed in [Q] through [inject_Z].
    Module [Binary64] repeats the same functions over IEEE binary64
    ([PrimFloat]): the script is re-evaluated there, with its own rounding,
    at the concrete inputs the development relies on, and the relation
    between take-home pay and the floor, which rounding can shift by one,
    is proved there for every binary64 income. *)

From Stdlib Require Import ZArith QArith Qround Qabs Qminmax Lqa Lia Bool List String.
From Stdlib Require Import PrimFloat FloatOps SpecFloat FloatAxioms.
Import ListNotations.

(* Decimal literals denote the nearest binary64 value, as they do in Python. *)
Set Warnings "-inexact-float".

Local Open Scope Q_scope.

(** Comparison operators of the script, as boolean tests on rationals. *)
Definition Qleb (a b : Q) : bool := Qle_bool a b.
Definition Qltb (a b : Q) : bool := negb (Qle_bool b a).
Definition Qgeb (a b : Q) : bool := Qle_bool b a.
Definition Qgtb (a b : Q) : bool := negb (Qle_bool a b).

(** Python's [min(a, b)]: the first argument unless the second is smaller. *)
Definition py_min (a b : Q) : Q := if Qltb b a then b else a.

(** [math.floor]. *)
Definition math_floor (x : Q) : Z := Qfloor x.

Module Calc.

Definition EMPLOYEE_PF_RATE : Q := 2561 # 10000.
Definition PROFESSIONAL_TAX : Q := 25 # 10.
Definition PRESUMPTIVE_RATE : Q := 5 # 10.
Definition EMPLOYEE_TAX_DEDUCTION : Q := 160.
Definition SLAB_1 : Q := 250.
Definition SLAB_2 : Q := 500.
Definition SLAB_3 : Q := 1000.

Definition lakh (amount : Q) : Q := amount * 100.

(** How much income tax is due under slab 1? *)
Definition income_tax_slab_1 (income : Q) : Q :=
  if Qleb income SLAB_1 then 0
  else
    let income := if Qgtb income SLAB_2 then SLAB_2 else income in
    let income := income - SLAB_1 in
    income * (5 # 100).

Definition income_tax_slab_2 (income : Q) : Q :=
  if Qleb income SLAB_2 then 0
  else
    let income := if Qgtb income SLAB_3 then SLAB_3 else income in
    let income := income - SLAB_2 in
    income * (2 # 10).

Definition income_tax_slab_3 (income : Q) : Q :=
  if Qleb income SLAB_3 then 0
  else
    let income := income - SLAB_3 in
    income * (3 # 10).

(** Lines [income_tax_for] prints: the warning for incomes of a crore or more. *)
Definition income_tax_output (income : Q) : list string :=
  if Qleb income 500 then []
  else if Qgeb income (lakh 100)
       then ["Warning: ignoring surcharge for high income"%string]
       else [].

(** How much income tax is due? *)
Definition income_tax_for (income : Q) : Q :=
  if Qleb income 500 then 0
  else
    let tax := income_tax_slab_1 income + income_tax_slab_2 income
               + income_tax_slab_3 income in
    let cess := tax * (4 # 100) in
    let surcharge := if Qgeb income (lakh 50) then tax * (1 # 10) else 0 in
    tax + cess + surcharge.

Definition income_and_professional_tax_for (income : Q) : Q :=
  income_tax_for income + PROFESSIONAL_TAX.

(** Comprises income tax and professional tax. *)
Definition total_tax_for (income : Q) (is_employee : bool) : Q :=
  if is_employee
  then income_and_professional_tax_for (income - EMPLOYEE_TAX_DEDUCTION)
  else
    let income := income * PRESUMPTIVE_RATE in
    income_and_professional_tax_for income.

Definition pf_for (income : Q) : Q := py_min income 15 * EMPLOYEE_PF_RATE.

Definition take_home (income : Q) (is_employee : bool) : Z :=
  let tax := total_tax_for income is_employee in
  let pf := if is_employee then pf_for income else 0 in
  let income := income - tax - pf in
  math_floor (income / 12).

(** The [while] loop of [ctc_for_take_home_pay]: [fuel] bounds the number of
    evaluations of the loop condition; [None] means the bound was reached. *)
Fixpoint ctc_loop (fuel : nat) (desired_take_home : Q) (is_employee : bool)
    (ctc : Z) : option Z :=
  match fuel with
  | O => None
  | S fuel' =>
      if Qltb (inject_Z (take_home (inject_Z ctc) is_employee)) desired_take_home
      then ctc_loop fuel' desired_take_home is_employee (ctc + 1)
      else Some ctc
  end.

Definition ctc_for_take_home_pay (fuel : nat) (desired_take_home : Q)
    (is_employee : bool) : option Z :=
  ctc_loop fuel desired_take_home is_employee 1.

End Calc.

(** * The same functions over IEEE binary64

    The argument is a binary64 value; an integer argument below 2^53 is
    converted without rounding wherever the script first combines it with a
    binary64 value, so the script returns the same on it. *)

Module Binary64.

Local Open Scope float_scope.

Definition EMPLOYEE_PF_RATE : float := 0.2561.
Definition PROFESSIONAL_TAX : float := 2.5.
Definition PRESUMPTIVE_RATE : float := 0.5.
Definition EMPLOYEE_TAX_DEDUCTION : float := 160.
Definition SLAB_1 : float := 250.
Definition SLAB_2 : float := 500.
Definition SLAB_3 : float := 1000.

Definition lakh (amount : float) : float := amount * 100.

Definition gtb (a b : float) : bool := b <? a.
Definition geb (a b : float) : bool := b <=? a.

Definition py_min (a b : float) : float := if b <? a then b else a.

(** [math.floor] on a binary64 value; [None] where Python raises
    (infinities and NaN). *)
Definition math_floor (x : float) : option Z :=
  match Prim2SF x with
  | S754_zero _ => Some 0%Z
  | S754_finite s m e =>
      Some (Z.shiftl (if s then Z.neg m else Z.pos m) e)
  | S754_infinity _ | S754_nan => None
  end.


Definition income_tax_slab_1 (income : float) : float :=
  if income <=? SLAB_1 then 0
  else
    let income := if gtb income SLAB_2 then SLAB_2 else income in
    let income := income - SLAB_1 in
    income * 0.05.

Definition income_tax_slab_2 (income : float) : float :=
  if income <=? SLAB_2 then 0
  else
    let income := if gtb income SLAB_3 then SLAB_3 else income in
    let income := income - SLAB_2 in
    income * 0.2.

Definition income_tax_slab_3 (income : float) : float :=
  if income <=? SLAB_3 then 0
  else
    let income := income - SLAB_3 in
    income * 0.3.

Definition income_tax_for (income : float) : float :=
  if income <=? 500 then 0
  else
    let tax := income_tax_slab_1 income + income_tax_slab_2 income
               + income_tax_slab_3 income in
    let cess := tax * 0.04 in
    let surcharge := if geb income (lakh 50) then tax * 0.1 else 0 in
    tax + cess + surcharge.

Definition income_and_professional_tax_for (income : float) : float :=
  income_tax_for income + PROFESSIONAL_TAX.

Definition total_tax_for (income : float) (is_employee : bool) : float :=
  if is_employee
  then income_and_professional_tax_for (income - EMPLOYEE_TAX_DEDUCTION)
  else
    let income := income * PRESUMPTIVE_RATE in
    income_and_professional_tax_for income.

Definition pf_for (income : float) : float := py_min income 15 * EMPLOYEE_PF_RATE.

Definition take_home (income : float) (is_employee : bool) : option Z :=
  let tax := total_tax_for income is_employee in
  let pf := if is_employee then pf_for income else 0 in
  let income := income - tax - pf in
  math_floor (income / 12).

End Binary64.

(** * Derived quantities used in the statements *)

Module CalcSpec.
Import Calc.

(** The income on which income tax is charged: the argument [total_tax_for]
    hands to [income_and_professional_tax_for]. *)
Definition taxable_income (income : Q) (is_employee : bool) : Q :=
  if is_employee then income - EMPLOYEE_TAX_DEDUCTION
  else income * PRESUMPTIVE_RATE.

(** The annual net amount [income - tax - pf] that [take_home] divides by 12. *)
Definition net_annual (income : Q) (is_employee : bool) : Q :=
  income - total_tax_for income is_employee
  - (if is_employee then pf_for income else 0).

(** Truncation toward zero, the rounding the specification names. *)
Definition truncate (x : Q) : Z := Z.quot (Qnum x) (Zpos (Qden x)).

(** The monthly take-home pay of an integer CTC, as the search loop
    compares it with the target. *)
Definition pay (is_employee : bool) (ctc : Z) : Q :=
  inject_Z (take_home (inject_Z ctc) is_employee).

(** A CTC large enough for a target: 24 times the target plus 38. *)
Definition enough_ctc (desired_take_home : Q) : Z :=
  Z.max 1 (Qceiling (24 * desired_take_home + 38)).

(** [g d] tends to 0 as [d] tends to 0 from above. *)
Definition tends_to_0_from_above (g : Q -> Q) : Prop :=
  forall eps, 0 < eps ->
    exists delta, 0 < delta /\ forall d, 0 < d -> d < delta -> Qabs (g d) < eps.

(** [f] has no jump to the right of [b]. *)
Definition right_continuous_at (f : Q -> Q) (b : Q) : Prop :=
  tends_to_0_from_above (fun d => f (b + d) - f b).

(** Both taxable incomes lie in the same piece of the tax schedule: under the
    rebate limit, between it and the surcharge limit, or above the latter. *)
Definition same_regime (t1 t2 : Q) : Prop :=
  t2 <= 500 \/ (500 < t1 /\ t2 < lakh 50) \/ lakh 50 <= t1.


End CalcSpec.

(** * Console output, reporting and the search as a relation *)

Module Report.
Import Calc.

Definition WARNING : string := "Warning: ignoring surcharge for high income".

(** What each function of the call chain prints: only [income_tax_for]
    prints, its callers pass the lines on. *)
Definition income_and_professional_tax_output (income : Q) : list string :=
  income_tax_output income.

Definition total_tax_output (income : Q) (is_employee : bool) : list string :=
  if is_employee
  then income_and_professional_tax_output (income - EMPLOYEE_TAX_DEDUCTION)
  else
    let income := income * PRESUMPTIVE_RATE in
    income_and_professional_tax_output income.

Definition take_home_output (income : Q) (is_employee : bool) : list string :=
  total_tax_output income is_employee.

(** The lines printed by the loop of [ctc_for_take_home_pay]: every
    evaluation of the loop condition calls [take_home]. *)
Fixpoint ctc_loop_output (fuel : nat) (desired_take_home : Q)
    (is_employee : bool) (ctc : Z) : option (list string) :=
  match fuel with
  | O => None
  | S fuel' =>
      let out := take_home_output (inject_Z ctc) is_employee in
      if Qltb (inject_Z (take_home (inject_Z ctc) is_employee)) desired_take_home
      then option_map (app out)
             (ctc_loop_output fuel' desired_take_home is_employee (ctc + 1))
      else Some out
  end.

Definition ctc_for_take_home_pay_output (fuel : nat) (desired_take_home : Q)
    (is_employee : bool) : option (list string) :=
  ctc_loop_output fuel desired_take_home is_employee 1.

(** [format_money]: the number interpolated into the f-string and the text
    that follows it.  How Python prints the number is not modelled. *)
Definition format_money (amount : Q) : Q * string :=
  if Qgeb amount 100
  then let amount := amount / 100 in (amount, " lakh"%string)
  else (amount, "K"%string).

(** [ctc_for_take_home_pay] returns [ctc]: some number of loop iterations
    suffices for it. *)
Definition search_result (desired_take_home : Q) (is_employee : bool)
    (ctc : Z) : Prop :=
  exists fuel,
    ctc_for_take_home_pay fuel desired_take_home is_employee = Some ctc.

(** The first CTC at which [take_home] prints the warning. *)
Definition warning_from (is_employee : bool) : Z :=
  if is_employee then 10160%Z else 20000%Z.

End Report.

(** * Boolean tests and case analysis *)

Lemma Qle_bool_true (a b : Q) : Qle_bool a b = true -> a <= b.
Proof. apply Qle_bool_iff. Qed.

Lemma Qle_bool_false (a b : Q) : Qle_bool a b = false -> b < a.
Proof.
  intros E. apply Qnot_le_lt. intros H.
  apply Qle_bool_iff in H. congruence.
Qed.

(** Split on every comparison left in the goal, keeping the order fact. *)
Ltac qtests :=
  unfold Qleb, Qltb, Qgeb, Qgtb in *;
  repeat match goal with
  | |- context [Qle_bool ?a ?b] =>
      let E := fresh "E" in
      destruct (Qle_bool a b) eqn:E;
      [apply Qle_bool_true in E | apply Qle_bool_false in E];
      cbv [negb]
  end.

Ltac calc_unfold :=
  unfold Calc.income_tax_for, Calc.income_tax_slab_1, Calc.income_tax_slab_2,
    Calc.income_tax_slab_3, Calc.lakh, Calc.SLAB_1, Calc.SLAB_2, Calc.SLAB_3 in *.

Section IncomeTax.
Import Calc.

(** The aggregate tax in closed form on each piece of the schedule. *)
Lemma income_tax_for_pieces (t : Q) :
  (t <= 500 /\ income_tax_for t == 0) \/
  (500 < t /\ t <= 1000 /\
     income_tax_for t == (104 # 100) * ((125 # 10) + (2 # 10) * (t - 500))) \/
  (1000 < t /\ t < 5000 /\
     income_tax_for t == (104 # 100) * ((1125 # 10) + (3 # 10) * (t - 1000))) \/
  (5000 <= t /\
     income_tax_for t == (114 # 100) * ((1125 # 10) + (3 # 10) * (t - 1000))).
Proof.
  calc_unfold. qtests; try lra;
    first [ left; split; lra
          | right; left; repeat split; lra
          | right; right; left; repeat split; lra
          | right; right; right; split; lra ].
Qed.

End IncomeTax.

Section TaxClaims.
Import Calc CalcSpec.

Lemma income_tax_for_nonneg (t : Q) : 0 <= income_tax_for t.
Proof.
  destruct (income_tax_for_pieces t) as [[? E]|[(?&?&E)|[(?&?&E)|[? E]]]]; lra.
Qed.

Lemma income_tax_for_mono (i1 i2 : Q) :
  i1 <= i2 -> income_tax_for i1 <= income_tax_for i2.
Proof.
  intros H.
  destruct (income_tax_for_pieces i1) as [[? E1]|[(?&?&E1)|[(?&?&E1)|[? E1]]]];
  destruct (income_tax_for_pieces i2) as [[? E2]|[(?&?&E2)|[(?&?&E2)|[? E2]]]];
  lra.
Qed.

(** C4.  An income of at most 500 pays no income tax at all, although the
    first slab on its own charges a positive amount as soon as the income
    exceeds 250. *)
Theorem income_tax_for_rebate (income : Q) :
  income <= 500 ->
  income_tax_for income = 0 /\ (250 < income -> 0 < income_tax_slab_1 income).
Proof.
  intros H. split.
  - unfold income_tax_for, Qleb.
    destruct (Qle_bool income 500) eqn:E; [reflexivity|].
    apply Qle_bool_false in E. lra.
  - intros H'. calc_unfold. qtests; lra.
Qed.

Lemma income_tax_for_rebate_witness :
  400 <= 500 /\
  (income_tax_for 400 = 0 /\ (250 < 400 -> 0 < income_tax_slab_1 400)).
Proof.
  split; [ lra | apply (income_tax_for_rebate 400); lra ].
Defined.

(** C5.  Above 500 the income tax is the sum S of the three slab taxes, plus
    a cess of 4% of S, plus a surcharge of 10% of S exactly when the income
    is at least 5000; for an income of 600 this is 33.8. *)
Theorem income_tax_for_cess_surcharge (income : Q) :
  500 < income ->
  let S := income_tax_slab_1 income + income_tax_slab_2 income
           + income_tax_slab_3 income in
  (5000 <= income ->
     income_tax_for income == S + (4 # 100) * S + (1 # 10) * S) /\
  (income < 5000 -> income_tax_for income == S + (4 # 100) * S + 0) /\
  income_tax_for 600 == 338 # 10.
Proof.
  intros H S. subst S. split; [ | split ].
  - intros H'. unfold income_tax_for, lakh. qtests; lra.
  - intros H'. unfold income_tax_for, lakh. qtests; lra.
  - vm_compute. reflexivity.
Qed.

Lemma income_tax_for_cess_surcharge_witness :
  500 < 6000 /\ income_tax_for 6000 == 18382500 # 10000.
Proof.
  split; [ lra | ].
  destruct (income_tax_for_cess_surcharge 6000) as (H & _ & _); [ lra | ].
  rewrite H by lra. vm_compute. reflexivity.
Defined.

(** C6.  The total tax of an employee is the income tax on the income less
    the deduction of 160, that of a consultant the income tax on half the
    income; the professional tax of 2.5 is added to either afterwards, so
    that the total is never below 2.5 whatever the deduction. *)
Theorem total_tax_for_branches (income : Q) :
  total_tax_for income true == income_tax_for (income - 160) + (25 # 10) /\
  total_tax_for income false == income_tax_for (income * (5 # 10)) + (25 # 10) /\
  forall is_employee, 25 # 10 <= total_tax_for income is_employee.
Proof.
  split; [ | split ].
  - unfold total_tax_for, income_and_professional_tax_for. reflexivity.
  - unfold total_tax_for, income_and_professional_tax_for. reflexivity.
  - intros [|]; unfold total_tax_for, income_and_professional_tax_for,
      EMPLOYEE_TAX_DEDUCTION, PRESUMPTIVE_RATE, PROFESSIONAL_TAX.
    + pose proof (income_tax_for_nonneg (income - 160)). lra.
    + pose proof (income_tax_for_nonneg (income * (5 # 10))). lra.
Qed.

(** C8.  Income tax and total tax never decrease when the income grows. *)
Theorem tax_monotone (i1 i2 : Q) :
  i1 <= i2 ->
  income_tax_for i1 <= income_tax_for i2 /\
  forall is_employee,
    total_tax_for i1 is_employee <= total_tax_for i2 is_employee.
Proof.
  intros H. split; [ now apply income_tax_for_mono | ].
  intros [|]; unfold total_tax_for, income_and_professional_tax_for,
    EMPLOYEE_TAX_DEDUCTION, PRESUMPTIVE_RATE, PROFESSIONAL_TAX.
  - assert (income_tax_for (i1 - 160) <= income_tax_for (i2 - 160))
      by (apply income_tax_for_mono; lra).
    lra.
  - assert (income_tax_for (i1 * (5 # 10)) <= income_tax_for (i2 * (5 # 10)))
      by (apply income_tax_for_mono; lra).
    lra.
Qed.

Lemma tax_monotone_witness :
  500 <= 501 /\ income_tax_for 500 <= income_tax_for 501.
Proof.
  split; [ lra | apply (tax_monotone 500 501); lra ].
Defined.

Lemma pf_for_pieces (income : Q) :
  (income <= 15 /\ pf_for income == income * (2561 # 10000)) \/
  (15 < income /\ pf_for income == 38415 # 10000).
Proof.
  unfold pf_for, py_min, EMPLOYEE_PF_RATE. qtests; [ left | right ]; split; lra.
Qed.

(** C9.  The provident fund is charged on the income capped at 15, at the
    rate 0.2561: it is 3.8415 for an income of 20 and never more; the amount
    [take_home] subtracts for a consultant is 0. *)
Theorem pf_for_capped (income : Q) :
  pf_for income == Qmin income 15 * (2561 # 10000) /\
  pf_for 20 == 38415 # 10000 /\
  pf_for income <= 38415 # 10000 /\
  take_home income false
    = math_floor ((income - total_tax_for income false - 0) / 12).
Proof.
  split; [ | split; [ | split ] ].
  - destruct (pf_for_pieces income) as [[H E]|[H E]]; rewrite E.
    + rewrite (Q.min_l income 15) by lra. reflexivity.
    + rewrite (Q.min_r income 15) by lra. vm_compute. reflexivity.
  - vm_compute. reflexivity.
  - destruct (pf_for_pieces income) as [[H E]|[H E]]; lra.
  - reflexivity.
Qed.

End TaxClaims.

Section TakeHome.
Import Calc CalcSpec.

Ltac net_unfold :=
  unfold net_annual, taxable_income, same_regime, total_tax_for,
    income_and_professional_tax_for, lakh, EMPLOYEE_TAX_DEDUCTION,
    PRESUMPTIVE_RATE, PROFESSIONAL_TAX in *.

Lemma take_home_net (income : Q) (is_employee : bool) :
  take_home income is_employee = Qfloor (net_annual income is_employee / 12).
Proof. reflexivity. Qed.

Lemma Qfloor_div12_mono (x y : Q) : x <= y -> (Qfloor (x / 12) <= Qfloor (y / 12))%Z.
Proof.
  intros H. apply Qfloor_resp_le. unfold Qdiv.
  apply Qmult_le_compat_r; [ assumption | vm_compute; discriminate ].
Qed.

(** Within one piece of the schedule a rupee more of CTC costs less than a
    rupee of tax and provident fund. *)
Lemma net_annual_mono (c1 c2 : Q) (is_employee : bool) :
  c1 <= c2 ->
  same_regime (taxable_income c1 is_employee) (taxable_income c2 is_employee) ->
  net_annual c1 is_employee <= net_annual c2 is_employee.
Proof.
  intros H R. destruct is_employee; net_unfold.
  - destruct (pf_for_pieces c1) as [[? P1]|[? P1]];
    destruct (pf_for_pieces c2) as [[? P2]|[? P2]];
    destruct (income_tax_for_pieces (c1 - 160))
      as [[? E1]|[(?&?&E1)|[(?&?&E1)|[? E1]]]];
    destruct (income_tax_for_pieces (c2 - 160))
      as [[? E2]|[(?&?&E2)|[(?&?&E2)|[? E2]]]];
    lra.
  - destruct (income_tax_for_pieces (c1 * (5 # 10)))
      as [[? E1]|[(?&?&E1)|[(?&?&E1)|[? E1]]]];
    destruct (income_tax_for_pieces (c2 * (5 # 10)))
      as [[? E2]|[(?&?&E2)|[(?&?&E2)|[? E2]]]];
    lra.
Qed.


Lemma truncate_floor (x : Q) : 0 <= x -> truncate x = Qfloor x.
Proof.
  destruct x as [n d]. unfold Qle, truncate, Qfloor. simpl. intros H.
  apply Z.quot_div_nonneg; lia.
Qed.

Lemma Qfloor_nonneg (x : Q) : 0 <= x -> (0 <= Qfloor x)%Z.
Proof. intros H. change 0%Z with (Qfloor 0). now apply Qfloor_resp_le. Qed.






(** C10.  At the same non-negative CTC a consultant takes home at least as
    much as an employee. *)
Theorem consultant_takes_home_more (income : Q) :
  0 <= income ->
  (take_home income true <= take_home income false)%Z.
Proof.
  intros H. rewrite !take_home_net. apply Qfloor_div12_mono. net_unfold.
  destruct (pf_for_pieces income) as [[? P]|[? P]];
  destruct (income_tax_for_pieces (income - 160))
    as [[? E1]|[(?&?&E1)|[(?&?&E1)|[? E1]]]];
  destruct (income_tax_for_pieces (income * (5 # 10)))
    as [[? E2]|[(?&?&E2)|[(?&?&E2)|[? E2]]]];
  lra.
Qed.

Lemma consultant_takes_home_more_witness :
  0 <= 1000 /\ (take_home 1000 true <= take_home 1000 false)%Z.
Proof.
  split; [ lra | apply (consultant_takes_home_more 1000); lra ].
Defined.

End TakeHome.

Section TakeHomeRounding.
Local Open Scope float_scope.





End TakeHomeRounding.

Section Boundaries.
Import Calc CalcSpec.

Ltac tax_at t :=
  let E := fresh "E" in
  destruct (income_tax_for_pieces t) as [[? E]|[(?&?&E)|[(?&?&E)|[? E]]]].

(** C3, as stated, fails at 500: the tax of an income of 500 is 0, that of
    any larger income is at least 13, however close to 500 it is. *)
Lemma income_tax_for_jumps_at_500 :
  ~ right_continuous_at income_tax_for 500.
Proof.
  intros H. destruct (H 13) as (delta & Hd & Hall); [ lra | ].
  specialize (Hall (delta * (1 # 2))).
  apply Qabs_Qlt_condition in Hall; try lra.
  tax_at (500 + delta * (1 # 2)); tax_at 500; lra.
Qed.

(** C3, amended.  The income tax has no jump to the right of 250 and of
    1000; at 500 it jumps by 13, the tax on the first slab with its cess that
    the rebate had waived: the difference to the tax at 500 tends to 13. *)
Theorem income_tax_for_boundaries :
  right_continuous_at income_tax_for 250 /\
  right_continuous_at income_tax_for 1000 /\
  tends_to_0_from_above
    (fun d => income_tax_for (500 + d) - income_tax_for 500 - 13).
Proof.
  split; [ | split ]; intros eps Heps.
  - exists 1. split; [ lra | ]. intros d H0 H1.
    apply Qabs_Qlt_condition.
    tax_at (250 + d); tax_at 250; lra.
  - destruct (Qlt_le_dec eps 1) as [Hlt|Hge].
    + exists eps. split; [ lra | ]. intros d H0 H1.
      apply Qabs_Qlt_condition.
      tax_at (1000 + d); tax_at 1000; lra.
    + exists 1. split; [ lra | ]. intros d H0 H1.
      apply Qabs_Qlt_condition.
      tax_at (1000 + d); tax_at 1000; lra.
  - destruct (Qlt_le_dec eps 1) as [Hlt|Hge].
    + exists eps. split; [ lra | ]. intros d H0 H1.
      apply Qabs_Qlt_condition.
      tax_at (500 + d); tax_at 500; lra.
    + exists 1. split; [ lra | ]. intros d H0 H1.
      apply Qabs_Qlt_condition.
      tax_at (500 + d); tax_at 500; lra.
Qed.

End Boundaries.

Section InverseSearch.
Import Calc CalcSpec.

Variable desired_take_home : Q.
Variable is_employee : bool.

Lemma ctc_loop_step (fuel : nat) (ctc : Z) :
  ctc_loop (S fuel) desired_take_home is_employee ctc
  = if Qltb (pay is_employee ctc) desired_take_home
    then ctc_loop fuel desired_take_home is_employee (ctc + 1)
    else Some ctc.
Proof. reflexivity. Qed.

Lemma Qltb_true (a b : Q) : Qltb a b = true -> a < b.
Proof.
  unfold Qltb. destruct (Qle_bool b a) eqn:E; [ discriminate | ].
  intros _. now apply Qle_bool_false.
Qed.

Lemma Qltb_false (a b : Q) : Qltb a b = false -> b <= a.
Proof.
  unfold Qltb. destruct (Qle_bool b a) eqn:E; [ | discriminate ].
  intros _. now apply Qle_bool_true.
Qed.

(** More fuel does not change an answer already found. *)
Lemma ctc_loop_fuel_mono (fuel fuel' : nat) :
  (fuel <= fuel')%nat ->
  forall ctc r,
    ctc_loop fuel desired_take_home is_employee ctc = Some r ->
    ctc_loop fuel' desired_take_home is_employee ctc = Some r.
Proof.
  revert fuel'. induction fuel as [|fuel IH]; intros fuel' Hle ctc r H.
  - discriminate.
  - destruct fuel' as [|fuel']; [ lia | ].
    rewrite ctc_loop_step in *.
    destruct (Qltb (pay is_employee ctc) desired_take_home); [ | assumption ].
    apply IH; [ lia | assumption ].
Qed.

(** The scan started at [start] stops at the first CTC whose pay reaches the
    target, provided one lies within [fuel] steps. *)
Lemma ctc_loop_first (fuel : nat) :
  forall start good,
    (start <= good < start + Z.of_nat fuel)%Z ->
    desired_take_home <= pay is_employee good ->
    exists ctc,
      ctc_loop fuel desired_take_home is_employee start = Some ctc /\
      (start <= ctc <= good)%Z /\
      desired_take_home <= pay is_employee ctc /\
      forall c, (start <= c < ctc)%Z -> pay is_employee c < desired_take_home.
Proof.
  induction fuel as [|fuel IH]; intros start good Hrange Hgood.
  - lia.
  - rewrite ctc_loop_step.
    destruct (Qltb (pay is_employee start) desired_take_home) eqn:T.
    + apply Qltb_true in T.
      assert (good <> start) by (intros ->; lra).
      destruct (IH (start + 1)%Z good) as (ctc & Hrun & Hb & Hmeet & Hmin);
        [ lia | assumption | ].
      exists ctc. repeat split; try assumption; try lia.
      intros c Hc. destruct (Z.eq_dec c start) as [->|Hne]; [ assumption | ].
      apply Hmin. lia.
    + apply Qltb_false in T.
      exists start. repeat split; try assumption; try lia.
Qed.

(** Half of the CTC, less 7, is always left after tax and provident fund. *)
Lemma net_annual_lower_bound (income : Q) :
  0 <= income -> income * (1 # 2) - 7 <= net_annual income is_employee.
Proof.
  intros H. unfold net_annual, total_tax_for, income_and_professional_tax_for,
    EMPLOYEE_TAX_DEDUCTION, PRESUMPTIVE_RATE, PROFESSIONAL_TAX.
  destruct is_employee.
  - destruct (pf_for_pieces income) as [[? P]|[? P]];
    destruct (income_tax_for_pieces (income - 160))
      as [[? E]|[(?&?&E)|[(?&?&E)|[? E]]]];
    lra.
  - destruct (income_tax_for_pieces (income * (5 # 10)))
      as [[? E]|[(?&?&E)|[(?&?&E)|[? E]]]];
    lra.
Qed.

Lemma enough_ctc_pays :
  desired_take_home <= pay is_employee (enough_ctc desired_take_home).
Proof.
  unfold pay. rewrite take_home_net.
  set (c := inject_Z (enough_ctc desired_take_home)).
  assert (Hc1 : 1 <= c).
  { unfold c. change 1 with (inject_Z 1). rewrite <- Zle_Qle.
    unfold enough_ctc. lia. }
  assert (Hc2 : 24 * desired_take_home + 38 <= c).
  { unfold c, enough_ctc.
    apply Qle_trans with (inject_Z (Qceiling (24 * desired_take_home + 38))).
    - apply Qle_ceiling.
    - rewrite <- Zle_Qle. lia. }
  pose proof (net_annual_lower_bound c) as Hnet.
  pose proof (Qlt_floor (net_annual c is_employee / 12)) as Hfl.
  rewrite inject_Z_plus in Hfl. change (inject_Z 1) with 1 in Hfl.
  assert (Hdiv : net_annual c is_employee / 12
                 == net_annual c is_employee * (1 # 12)) by reflexivity.
  lra.
Qed.

Lemma enough_ctc_pos : (1 <= enough_ctc desired_take_home)%Z.
Proof. unfold enough_ctc. lia. Qed.

End InverseSearch.

Section InverseSearchClaim.
Import Calc CalcSpec.

(** C7.  For every target and either classification the search stops: with
    enough fuel it returns a CTC, the same whatever the fuel; that CTC is at
    least 1, its take-home pay reaches the target, and the take-home pay of
    every smaller CTC from 1 on is below the target. *)
Theorem ctc_for_take_home_pay_minimal (desired_take_home : Q) (is_employee : bool) :
  exists ctc,
    (exists fuel, forall fuel', (fuel <= fuel')%nat ->
       ctc_for_take_home_pay fuel' desired_take_home is_employee = Some ctc) /\
    (forall fuel r,
       ctc_for_take_home_pay fuel desired_take_home is_employee = Some r ->
       r = ctc) /\
    (1 <= ctc)%Z /\
    desired_take_home <= inject_Z (take_home (inject_Z ctc) is_employee) /\
    forall c, (1 <= c < ctc)%Z ->
      inject_Z (take_home (inject_Z c) is_employee) < desired_take_home.
Proof.
  pose proof (enough_ctc_pos desired_take_home) as Hpos.
  set (fuel := Z.to_nat (enough_ctc desired_take_home)).
  destruct (ctc_loop_first desired_take_home is_employee fuel 1
              (enough_ctc desired_take_home))
    as (ctc & Hrun & Hb & Hmeet & Hmin).
  { unfold fuel. lia. }
  { apply enough_ctc_pays. }
  exists ctc. split; [ | split; [ | split; [ | split ] ] ].
  - exists fuel. intros fuel' Hle. unfold ctc_for_take_home_pay.
    now apply (ctc_loop_fuel_mono desired_take_home is_employee fuel fuel').
  - intros f r Hr. unfold ctc_for_take_home_pay in Hr.
    apply (ctc_loop_fuel_mono _ _ f (Nat.max f fuel)) in Hr; [ | lia ].
    apply (ctc_loop_fuel_mono _ _ fuel (Nat.max f fuel)) in Hrun; [ | lia ].
    congruence.
  - lia.
  - exact Hmeet.
  - exact Hmin.
Qed.

(** The two searches the script runs for a take-home pay of 50. *)
Example ctc_for_take_home_pay_50 :
  ctc_for_take_home_pay 1000 50 true = Some 607%Z /\
  ctc_for_take_home_pay 1000 50 false = Some 603%Z.
Proof. split; vm_compute; reflexivity. Qed.

End InverseSearchClaim.

(** * The script's own arithmetic at the inputs used above

    Evaluated in binary64, the functions return what the exact model
    returns at the inputs of the examples and counterexamples. *)

Section Binary64Checks.
Local Open Scope float_scope.

Example binary64_income_tax_600 :
  Binary64.income_tax_for 600 = 33.8 /\ Binary64.pf_for 20 = 3.8415.
Proof. split; vm_compute; reflexivity. Qed.

Example binary64_rebate_limit :
  Binary64.take_home 660 true = Some 54%Z /\
  Binary64.take_home 661 true = Some 53%Z /\
  Binary64.take_home 1000 false = Some 83%Z /\
  Binary64.take_home 1001 false = Some 82%Z.
Proof. repeat split; vm_compute; reflexivity. Qed.

Example binary64_no_income :
  Binary64.take_home 0 true = Some (-1)%Z /\
  Binary64.take_home 0 false = Some (-1)%Z.
Proof. split; vm_compute; reflexivity. Qed.

Example binary64_jump_at_500 :
  Binary64.income_tax_for 500 = 0 /\
  (Binary64.income_tax_for 500.001 <? 13) = false.
Proof. split; vm_compute; reflexivity. Qed.

Example binary64_take_home_50 :
  Binary64.take_home 606 true = Some 49%Z /\
  Binary64.take_home 607 true = Some 50%Z /\
  Binary64.take_home 602 false = Some 49%Z /\
  Binary64.take_home 603 false = Some 50%Z.
Proof. repeat split; vm_compute; reflexivity. Qed.

End Binary64Checks.

(** * The three slabs *)

Section Slabs.
Import Calc.

Ltac slab_unfold :=
  unfold income_tax_slab_1, income_tax_slab_2, income_tax_slab_3,
    SLAB_1, SLAB_2, SLAB_3 in *.

(** X1.  No slab charges a negative amount; the first slab charges at most
    12.5 and the second at most 100, whatever the income. *)
Theorem slab_taxes_bounded (income : Q) :
  (0 <= income_tax_slab_1 income /\ income_tax_slab_1 income <= 125 # 10) /\
  (0 <= income_tax_slab_2 income /\ income_tax_slab_2 income <= 100) /\
  0 <= income_tax_slab_3 income.
Proof.
  slab_unfold. qtests; lra.
Qed.

(** X3.  No slab tax, and so neither their sum, decreases when the income
    grows. *)
Theorem slab_taxes_monotone (a b : Q) :
  a <= b ->
  income_tax_slab_1 a <= income_tax_slab_1 b /\
  income_tax_slab_2 a <= income_tax_slab_2 b /\
  income_tax_slab_3 a <= income_tax_slab_3 b.
Proof.
  intros H. slab_unfold. qtests; lra.
Qed.

Lemma slab_taxes_monotone_witness :
  900 <= 1100 /\
  income_tax_slab_1 900 <= income_tax_slab_1 1100 /\
  income_tax_slab_2 900 <= income_tax_slab_2 1100 /\
  income_tax_slab_3 900 <= income_tax_slab_3 1100.
Proof.
  split; [ lra | apply (slab_taxes_monotone 900 1100); lra ].
Defined.

Ltac tax_pieces t :=
  let E := fresh "E" in
  destruct (income_tax_for_pieces t) as [[? E]|[(?&?&E)|[(?&?&E)|[? E]]]].

(** X5.  The two steps of the schedule: an income above 500 pays at least 13
    more than any income of at most 500, and an income of at least 5000 pays
    at least 131.25 more than any income below 5000. *)
Theorem income_tax_cliffs (t t' : Q) :
  (t <= 500 -> 500 < t' -> 13 <= income_tax_for t' - income_tax_for t) /\
  (t < 5000 -> 5000 <= t' ->
     13125 # 100 <= income_tax_for t' - income_tax_for t).
Proof.
  split; intros; tax_pieces t; tax_pieces t'; lra.
Qed.

Lemma income_tax_cliffs_witness :
  4999 < 5000 /\ 5000 <= 5000 /\
  13125 # 100 <= income_tax_for 5000 - income_tax_for 4999.
Proof.
  split; [ lra | split; [ lra | ] ].
  destruct (income_tax_cliffs 4999 5000) as (_ & H). apply H; lra.
Defined.

(** X6.  Income tax is never negative and never more than 34.2% of a
    non-negative income. *)
Theorem income_tax_effective_rate (t : Q) :
  0 <= income_tax_for t /\
  (0 <= t -> income_tax_for t <= (342 # 1000) * t).
Proof.
  split; [ | intros H ]; tax_pieces t; lra.
Qed.

Lemma income_tax_effective_rate_witness :
  0 <= 6000 /\ income_tax_for 6000 <= (342 # 1000) * 6000.
Proof.
  split; [ lra | ].
  destruct (income_tax_effective_rate 6000) as (_ & H). apply H. lra.
Defined.

End Slabs.

(** * Bounds on take-home pay *)

Section TakeHomeBounds.
Import Calc CalcSpec.

Ltac net_cases income :=
  unfold net_annual, total_tax_for, income_and_professional_tax_for,
    EMPLOYEE_TAX_DEDUCTION, PRESUMPTIVE_RATE, PROFESSIONAL_TAX in *;
  let P := fresh "P" in
  let E := fresh "E" in
  let F := fresh "F" in
  destruct (pf_for_pieces income) as [[? P]|[? P]];
  destruct (income_tax_for_pieces (income - 160))
    as [[? E]|[(?&?&E)|[(?&?&E)|[? E]]]];
  destruct (income_tax_for_pieces (income * (5 # 10)))
    as [[? F]|[(?&?&F)|[(?&?&F)|[? F]]]].

Lemma twelfth (x : Q) : x / 12 == x * (1 # 12).
Proof. reflexivity. Qed.

(** The floor of [y] is at most [k] below that of [x] when [y] is. *)
Lemma Qfloor_minus_le (x y : Q) (k : Z) :
  x - inject_Z k <= y -> (Qfloor x - k <= Qfloor y)%Z.
Proof.
  intros H.
  pose proof (Qfloor_le x) as Hx. pose proof (Qlt_floor y) as Hy.
  assert (Hlt : inject_Z (Qfloor x - k) < inject_Z (Qfloor y + 1)).
  { unfold Z.sub. rewrite inject_Z_plus, inject_Z_opp. lra. }
  rewrite <- Zlt_Qlt in Hlt. lia.
Qed.

Lemma Qfloor_neg_iff (x : Q) : (Qfloor x < 0)%Z <-> x < 0.
Proof.
  pose proof (Qfloor_le x) as Hx. pose proof (Qlt_floor x) as Hy.
  split; intros H.
  - assert (Hle : (Qfloor x + 1 <= 0)%Z) by lia.
    rewrite Zle_Qle in Hle. change (inject_Z 0) with 0 in Hle. lra.
  - rewrite Zlt_Qlt. change (inject_Z 0) with 0. lra.
Qed.

Lemma net_annual_all_cases (income : Q) (is_employee : bool) :
  0 <= income ->
  income * (1 # 2) - 7 <= net_annual income is_employee /\
  net_annual income is_employee <= income - (25 # 10).
Proof.
  intros H. destruct is_employee; net_cases income; lra.
Qed.

(** X7.  Of a non-negative CTC, a month's take-home pay is at most a twelfth
    of the CTC less the professional tax, and more than a twelfth of half
    the CTC less 19. *)
Theorem take_home_bounds (income : Q) (is_employee : bool) :
  0 <= income ->
  inject_Z (take_home income is_employee) * 12 <= income - (25 # 10) /\
  income * (1 # 2) - 19 < inject_Z (take_home income is_employee) * 12.
Proof.
  intros H. rewrite take_home_net.
  destruct (net_annual_all_cases income is_employee H) as [Hlo Hhi].
  pose proof (Qfloor_le (net_annual income is_employee / 12)) as Hf.
  pose proof (Qlt_floor (net_annual income is_employee / 12)) as Hc.
  rewrite inject_Z_plus in Hc. change (inject_Z 1) with 1 in Hc.
  pose proof (twelfth (net_annual income is_employee)) as Hd.
  split; lra.
Qed.

Lemma take_home_bounds_witness :
  0 <= 1000 /\ inject_Z (take_home 1000 true) * 12 <= 1000 - (25 # 10).
Proof.
  split; [ lra | apply (take_home_bounds 1000 true); lra ].
Defined.

Lemma net_annual_drop (c1 c2 : Q) (is_employee : bool) :
  c1 <= c2 ->
  net_annual c1 is_employee - (13125 # 100) <= net_annual c2 is_employee.
Proof.
  intros H. destruct is_employee;
    unfold net_annual, total_tax_for, income_and_professional_tax_for,
      EMPLOYEE_TAX_DEDUCTION, PRESUMPTIVE_RATE, PROFESSIONAL_TAX.
  - destruct (pf_for_pieces c1) as [[? P1]|[? P1]];
    destruct (pf_for_pieces c2) as [[? P2]|[? P2]];
    destruct (income_tax_for_pieces (c1 - 160))
      as [[? E1]|[(?&?&E1)|[(?&?&E1)|[? E1]]]];
    destruct (income_tax_for_pieces (c2 - 160))
      as [[? E2]|[(?&?&E2)|[(?&?&E2)|[? E2]]]];
    lra.
  - destruct (income_tax_for_pieces (c1 * (5 # 10)))
      as [[? E1]|[(?&?&E1)|[(?&?&E1)|[? E1]]]];
    destruct (income_tax_for_pieces (c2 * (5 # 10)))
      as [[? E2]|[(?&?&E2)|[(?&?&E2)|[? E2]]]];
    lra.
Qed.

(** X8.  A higher CTC never lowers the monthly take-home pay by more than
    11; a drop of 11 occurs, from a CTC of 5159 to one of 5160 for an
    employee. *)
Theorem take_home_drop_at_most_11 (c1 c2 : Q) (is_employee : bool) :
  c1 <= c2 ->
  (take_home c1 is_employee - 11 <= take_home c2 is_employee)%Z /\
  (take_home 5159 true - 11 = take_home 5160 true)%Z.
Proof.
  intros H. split; [ | reflexivity ].
  rewrite !take_home_net. apply Qfloor_minus_le.
  pose proof (net_annual_drop c1 c2 is_employee H) as Hd.
  pose proof (twelfth (net_annual c1 is_employee)) as H1.
  pose proof (twelfth (net_annual c2 is_employee)) as H2.
  change (inject_Z 11) with 11. lra.
Qed.

Lemma take_home_drop_at_most_11_witness :
  660 <= 661 /\ (take_home 660 true - 11 <= take_home 661 true)%Z.
Proof.
  split; [ lra | apply (take_home_drop_at_most_11 660 661 true); lra ].
Defined.

(** X9.  The take-home pay is negative for the smallest incomes and for no
    others: an employee's is negative up to an income of 3.36 and not
    negative from 3.37 on, a consultant's is negative exactly below 2.5.
    Negative incomes are not rejected. *)
Theorem take_home_sign_thresholds (income : Q) :
  (income <= 336 # 100 -> (take_home income true < 0)%Z) /\
  (337 # 100 <= income -> (0 <= take_home income true)%Z) /\
  ((take_home income false < 0)%Z <-> income < 25 # 10).
Proof.
  rewrite !take_home_net.
  pose proof (twelfth (net_annual income true)) as H1.
  pose proof (twelfth (net_annual income false)) as H2.
  split; [ | split ].
  - intros H. apply Qfloor_neg_iff. net_cases income; lra.
  - intros H. apply Qfloor_nonneg. net_cases income; lra.
  - rewrite Qfloor_neg_iff. split; intros H; net_cases income; lra.
Qed.

Lemma take_home_sign_thresholds_witness :
  3 <= 336 # 100 /\ (take_home 3 true < 0)%Z.
Proof.
  split; [ lra | ].
  destruct (take_home_sign_thresholds 3) as (H & _). apply H. lra.
Defined.

End TakeHomeBounds.

(** * The search as a function of its target *)

Section SearchProperties.
Import Calc CalcSpec Report.

(** Whatever the loop returns was found by scanning upward from [start]. *)
Lemma ctc_loop_sound (desired_take_home : Q) (is_employee : bool) (fuel : nat) :
  forall start r,
    ctc_loop fuel desired_take_home is_employee start = Some r ->
    (start <= r)%Z /\
    desired_take_home <= pay is_employee r /\
    forall c, (start <= c < r)%Z -> pay is_employee c < desired_take_home.
Proof.
  induction fuel as [|fuel IH]; intros start r H; [ discriminate | ].
  rewrite ctc_loop_step in H.
  destruct (Qltb (pay is_employee start) desired_take_home) eqn:T.
  - apply Qltb_true in T. destruct (IH _ _ H) as (Hle & Hmeet & Hmin).
    split; [ lia | split; [ assumption | ] ].
    intros c Hc. destruct (Z.eq_dec c start) as [->|Hne]; [ assumption | ].
    apply Hmin. lia.
  - apply Qltb_false in T. injection H as <-.
    split; [ lia | split; [ assumption | intros c Hc; lia ] ].
Qed.

Lemma search_result_sound (desired_take_home : Q) (is_employee : bool) (r : Z) :
  search_result desired_take_home is_employee r ->
  (1 <= r)%Z /\
  desired_take_home <= pay is_employee r /\
  forall c, (1 <= c < r)%Z -> pay is_employee c < desired_take_home.
Proof. intros [fuel H]. exact (ctc_loop_sound _ _ _ _ _ H). Qed.

Lemma pay_employee_le_consultant (c : Z) :
  (0 <= c)%Z -> pay true c <= pay false c.
Proof.
  intros H. unfold pay. rewrite <- Zle_Qle, !take_home_net.
  apply Qfloor_div12_mono.
  assert (Hc : 0 <= inject_Z c).
  { change 0 with (inject_Z 0). now rewrite <- Zle_Qle. }
  revert Hc. generalize (inject_Z c). intros income Hc.
  unfold net_annual, total_tax_for, income_and_professional_tax_for,
    EMPLOYEE_TAX_DEDUCTION, PRESUMPTIVE_RATE, PROFESSIONAL_TAX.
  destruct (pf_for_pieces income) as [[? P]|[? P]];
  destruct (income_tax_for_pieces (income - 160))
    as [[? E1]|[(?&?&E1)|[(?&?&E1)|[? E1]]]];
  destruct (income_tax_for_pieces (income * (5 # 10)))
    as [[? E2]|[(?&?&E2)|[(?&?&E2)|[? E2]]]];
  lra.
Qed.

Lemma pay_at_1 (is_employee : bool) : pay is_employee 1 = inject_Z (-1).
Proof. destruct is_employee; reflexivity. Qed.

(** X10.  The search needs at most max(1, ceiling(24 * target + 38))
    evaluations of its loop condition, and returns a CTC no larger than
    that. *)
Theorem ctc_search_within_bound (desired_take_home : Q) (is_employee : bool) :
  let bound := Z.max 1 (Qceiling (24 * desired_take_home + 38)) in
  exists ctc,
    ctc_for_take_home_pay (Z.to_nat bound) desired_take_home is_employee
      = Some ctc /\
    (1 <= ctc <= bound)%Z.
Proof.
  intros bound.
  destruct (ctc_loop_first desired_take_home is_employee (Z.to_nat bound) 1 bound)
    as (ctc & Hrun & Hb & _).
  - subst bound. lia.
  - apply enough_ctc_pays.
  - exists ctc. split; [ exact Hrun | exact Hb ].
Qed.

(** X11.  A higher target never yields a lower CTC. *)
Theorem ctc_search_monotone (t1 t2 : Q) (is_employee : bool) (c1 c2 : Z) :
  t1 <= t2 ->
  search_result t1 is_employee c1 ->
  search_result t2 is_employee c2 ->
  (c1 <= c2)%Z.
Proof.
  intros Ht H1 H2.
  destruct (search_result_sound _ _ _ H1) as (Hp1 & _ & Hmin1).
  destruct (search_result_sound _ _ _ H2) as (Hp2 & Hmeet2 & _).
  destruct (Z_le_gt_dec c1 c2) as [Hle|Hgt]; [ assumption | ].
  assert (Hlt : pay is_employee c2 < t1) by (apply Hmin1; lia).
  lra.
Qed.

Lemma ctc_search_monotone_witness :
  49 <= 50 /\ search_result 49 true 595 /\ search_result 50 true 607 /\
  (595 <= 607)%Z.
Proof.
  assert (H1 : search_result 49 true 595) by (exists 600%nat; vm_compute; reflexivity).
  assert (H2 : search_result 50 true 607) by (exists 700%nat; vm_compute; reflexivity).
  split; [ lra | split; [ exact H1 | split; [ exact H2 | ] ] ].
  apply (ctc_search_monotone 49 50 true 595 607); [ lra | exact H1 | exact H2 ].
Defined.

(** X12.  For the same target a consultant is never told to ask for a higher
    CTC than an employee. *)
Theorem ctc_search_consultant_le_employee (desired_take_home : Q)
    (c_employee c_consultant : Z) :
  search_result desired_take_home true c_employee ->
  search_result desired_take_home false c_consultant ->
  (c_consultant <= c_employee)%Z.
Proof.
  intros He Hc.
  destruct (search_result_sound _ _ _ He) as (Hpe & Hmeet & _).
  destruct (search_result_sound _ _ _ Hc) as (_ & _ & Hmin).
  destruct (Z_le_gt_dec c_consultant c_employee) as [Hle|Hgt]; [ assumption | ].
  assert (Hlt : pay false c_employee < desired_take_home) by (apply Hmin; lia).
  pose proof (pay_employee_le_consultant c_employee) as Hcmp.
  assert (Hcmp' : pay true c_employee <= pay false c_employee) by (apply Hcmp; lia).
  lra.
Qed.

Lemma ctc_search_consultant_le_employee_witness :
  search_result 50 true 607 /\ search_result 50 false 603 /\ (603 <= 607)%Z.
Proof.
  assert (H1 : search_result 50 true 607) by (exists 700%nat; vm_compute; reflexivity).
  assert (H2 : search_result 50 false 603) by (exists 700%nat; vm_compute; reflexivity).
  split; [ exact H1 | split; [ exact H2 | ] ].
  apply (ctc_search_consultant_le_employee 50 607 603); [ exact H1 | exact H2 ].
Defined.

(** X13.  Searching for the take-home pay of a CTC of at least 1 stops within
    that many steps, at a CTC that is no larger and pays no less. *)
Theorem ctc_search_of_take_home (c : Z) (is_employee : bool) :
  (1 <= c)%Z ->
  exists r,
    ctc_for_take_home_pay (Z.to_nat c)
      (inject_Z (take_home (inject_Z c) is_employee)) is_employee = Some r /\
    (1 <= r <= c)%Z /\
    (take_home (inject_Z c) is_employee <= take_home (inject_Z r) is_employee)%Z.
Proof.
  intros H.
  destruct (ctc_loop_first (pay is_employee c) is_employee (Z.to_nat c) 1 c)
    as (r & Hrun & Hb & Hmeet & _).
  - lia.
  - apply Qle_refl.
  - exists r. split; [ exact Hrun | split; [ exact Hb | ] ].
    unfold pay in Hmeet. now rewrite <- Zle_Qle in Hmeet.
Qed.

Lemma ctc_search_of_take_home_witness :
  (1 <= 661)%Z /\
  exists r,
    ctc_for_take_home_pay (Z.to_nat 661)
      (inject_Z (take_home (inject_Z 661) true)) true = Some r /\
    (1 <= r <= 661)%Z /\
    (take_home (inject_Z 661) true <= take_home (inject_Z r) true)%Z.
Proof.
  split; [ lia | apply (ctc_search_of_take_home 661 true); lia ].
Defined.

(** X14.  The search returns its starting CTC of 1 exactly when the target is
    at most -1, the take-home pay of a CTC of 1. *)
Theorem ctc_search_returns_1_iff (desired_take_home : Q) (is_employee : bool) :
  search_result desired_take_home is_employee 1 <-> desired_take_home <= -1.
Proof.
  split.
  - intros H. destruct (search_result_sound _ _ _ H) as (_ & Hmeet & _).
    rewrite pay_at_1 in Hmeet. exact Hmeet.
  - intros H. exists 1%nat. unfold ctc_for_take_home_pay.
    rewrite ctc_loop_step, pay_at_1.
    destruct (Qltb (inject_Z (-1)) desired_take_home) eqn:T; [ | reflexivity ].
    apply Qltb_true in T. change (inject_Z (-1)) with (-1) in T. lra.
Qed.

End SearchProperties.

(** * The warning and the report format *)

Section Output.
Import Calc CalcSpec Report.

Ltac output_unfold :=
  unfold take_home_output, total_tax_output, income_and_professional_tax_output,
    income_tax_output, lakh, EMPLOYEE_TAX_DEDUCTION, PRESUMPTIVE_RATE in *.

(** X15.  [take_home] prints the warning, once, exactly when the CTC is at
    least 10160 for an employee and at least 20000 for a consultant, and
    prints nothing otherwise. *)
Theorem take_home_warning_iff (income : Q) :
  (take_home_output income true = [WARNING] <-> 10160 <= income) /\
  (take_home_output income false = [WARNING] <-> 20000 <= income) /\
  forall is_employee,
    take_home_output income is_employee = []
    \/ take_home_output income is_employee = [WARNING].
Proof.
  split; [ | split ].
  - output_unfold. qtests; split; intros H;
      solve [ reflexivity | discriminate | lra ].
  - output_unfold. qtests; split; intros H;
      solve [ reflexivity | discriminate | lra ].
  - intros [|]; output_unfold; qtests; auto.
Qed.



Lemma take_home_output_at (c : Z) (is_employee : bool) :
  take_home_output (inject_Z c) is_employee
  = if (warning_from is_employee <=? c)%Z then [WARNING] else [].
Proof.
  destruct (take_home_warning_iff (inject_Z c)) as (He & Hc & Hall).
  destruct is_employee; unfold warning_from.
  - destruct (Z.leb_spec 10160 c) as [H|H].
    + apply He. rewrite Zle_Qle in H. exact H.
    + destruct (Hall true) as [E|E]; [ exact E | ].
      apply He in E. change 10160 with (inject_Z 10160) in E.
      rewrite <- Zle_Qle in E. lia.
  - destruct (Z.leb_spec 20000 c) as [H|H].
    + apply Hc. rewrite Zle_Qle in H. exact H.
    + destruct (Hall false) as [E|E]; [ exact E | ].
      apply Hc in E. change 20000 with (inject_Z 20000) in E.
      rewrite <- Zle_Qle in E. lia.
Qed.

Lemma ctc_loop_output_count (desired_take_home : Q) (is_employee : bool)
    (fuel : nat) :
  forall start r,
    ctc_loop fuel desired_take_home is_employee start = Some r ->
    ctc_loop_output fuel desired_take_home is_employee start
    = Some (repeat WARNING
              (Z.to_nat (r + 1 - Z.max start (warning_from is_employee)))).
Proof.
  induction fuel as [|fuel IH]; intros start r H; [ discriminate | ].
  pose proof (ctc_loop_sound _ _ _ _ _ H) as (Hle & _ & _).
  cbn [ctc_loop ctc_loop_output] in *.
  rewrite take_home_output_at.
  destruct (Qltb (inject_Z (take_home (inject_Z start) is_employee))
              desired_take_home).
  - pose proof (ctc_loop_sound _ _ _ _ _ H) as (Hle' & _ & _).
    rewrite (IH _ _ H). cbn [option_map]. f_equal.
    destruct (Z.leb_spec (warning_from is_employee) start) as [Hw|Hw].
    + replace (Z.to_nat (r + 1 - Z.max start (warning_from is_employee)))
        with (S (Z.to_nat (r + 1 - Z.max (start + 1) (warning_from is_employee))))
        by lia.
      reflexivity.
    + replace (Z.max (start + 1) (warning_from is_employee))
        with (Z.max start (warning_from is_employee)) by lia.
      reflexivity.
  - injection H as <-. f_equal.
    destruct (Z.leb_spec (warning_from is_employee) start) as [Hw|Hw].
    + replace (Z.to_nat (start + 1 - Z.max start (warning_from is_employee)))
        with 1%nat by lia.
      reflexivity.
    + replace (Z.to_nat (start + 1 - Z.max start (warning_from is_employee)))
        with 0%nat by lia.
      reflexivity.
Qed.

(** X17.  A search that returns the CTC r has printed the warning once for
    every CTC it tried from 10160 (employee) or 20000 (consultant) on:
    r - 10159 or r - 19999 times, and not at all when r is smaller. *)
Theorem ctc_search_warning_count (fuel : nat) (desired_take_home : Q)
    (is_employee : bool) (r : Z) :
  ctc_for_take_home_pay fuel desired_take_home is_employee = Some r ->
  ctc_for_take_home_pay_output fuel desired_take_home is_employee
  = Some (repeat WARNING (Z.to_nat (r + 1 - warning_from is_employee))).
Proof.
  intros H. unfold ctc_for_take_home_pay_output.
  rewrite (ctc_loop_output_count _ _ _ _ _ H).
  do 2 f_equal. destruct is_employee; unfold warning_from; lia.
Qed.

Lemma ctc_search_warning_count_witness :
  ctc_for_take_home_pay (Z.to_nat 10200) 580 true = Some 10180%Z /\
  ctc_for_take_home_pay_output (Z.to_nat 10200) 580 true
  = Some (repeat WARNING 21).
Proof.
  split; [ vm_compute; reflexivity | ].
  apply (ctc_search_warning_count (Z.to_nat 10200) 580 true 10180).
  vm_compute. reflexivity.
Defined.

Lemma hundredth (x : Q) : x / 100 == x * (1 # 100).
Proof. reflexivity. Qed.

(** X19.  [format_money] undoes [lakh] on whole numbers: a whole number of
    lakhs from 1 to 2^53 is shown as that number of lakh; one below 1 is
    shown, a hundredfold, in K. *)
Theorem format_money_lakh (n : Z) :
  ((1 <= n <= 2 ^ 53)%Z ->
     fst (format_money (lakh (inject_Z n))) == inject_Z n /\
     snd (format_money (lakh (inject_Z n))) = " lakh"%string) /\
  ((n < 1)%Z ->
     format_money (lakh (inject_Z n)) = (inject_Z n * 100, "K"%string)).
Proof.
  unfold format_money, lakh.
  pose proof (hundredth (inject_Z n * 100)) as Hd.
  split; intros H.
  - assert (Hn : 1 <= inject_Z n).
    { change 1 with (inject_Z 1). rewrite <- Zle_Qle. lia. }
    qtests; cbn [fst snd]; [ split; [ lra | reflexivity ] | lra ].
  - assert (Hn : inject_Z n < 1).
    { change 1 with (inject_Z 1). rewrite <- Zlt_Qlt. lia. }
    qtests; [ lra | reflexivity ].
Qed.

Lemma format_money_lakh_witness :
  (1 <= 10 <= 2 ^ 53)%Z /\
  fst (format_money (lakh (inject_Z 10))) == inject_Z 10 /\
  snd (format_money (lakh (inject_Z 10))) = " lakh"%string.
Proof.
  split; [ lia | ].
  destruct (format_money_lakh 10) as (H & _). apply H. lia.
Defined.

End Output.

(** * Arguments that are not numbers, in binary64 *)

Section Binary64Edges.
Local Open Scope float_scope.

(** X20.  For a CTC that is infinite or not a number, [take_home] returns
    nothing: [math.floor] raises on the net amount, for an employee and for
    a consultant alike. *)
Theorem binary64_take_home_not_finite (is_employee : bool) :
  Binary64.take_home infinity is_employee = None /\
  Binary64.take_home neg_infinity is_employee = None /\
  Binary64.take_home nan is_employee = None.
Proof.
  destruct is_employee; repeat split; vm_compute; reflexivity.
Qed.

End Binary64Edges.

(** * The limits of the statements above, in binary64 *)

Section Binary64Thresholds.
Local Open Scope float_scope.

(** Behind each dip the script's take-home pay is back at the level reached
    before the limit. *)
Example binary64_dip_ends :
  Binary64.take_home 660 true = Some 54%Z /\
  Binary64.take_home 677 true = Some 54%Z /\
  Binary64.take_home 5159 true = Some 315%Z /\
  Binary64.take_home 5360 true = Some 315%Z /\
  Binary64.take_home 1000 false = Some 83%Z /\
  Binary64.take_home 1015 false = Some 83%Z /\
  Binary64.take_home 9999 false = Some 719%Z /\
  Binary64.take_home 10159 false = Some 719%Z.
Proof. repeat split; vm_compute; reflexivity. Qed.

(** The sign of the script's take-home pay around the smallest incomes. *)
Example binary64_sign_thresholds :
  Binary64.take_home 3.36 true = Some (-1)%Z /\
  Binary64.take_home 3.37 true = Some 0%Z /\
  Binary64.take_home (next_down 2.5) false = Some (-1)%Z /\
  Binary64.take_home 2.5 false = Some 0%Z.
Proof. repeat split; vm_compute; reflexivity. Qed.

End Binary64Thresholds.

Section ExactAndBinary64.

(** Where a twelfth of the exact net amount is a whole number, rounding can
    make the script floor to the integer below: this is why the relation
    between take-home pay and its twelfth is stated in binary64. *)
Example binary64_floor_below_exact :
  Binary64.take_home 12841.75%float true = Some 725%Z /\
  Calc.take_home (1284175 # 100) true = 726%Z.
Proof. split; vm_compute; reflexivity. Qed.

End ExactAndBinary64.
